(** * Near-Earth objects: the data model of [models.py]

    A shallow embedding of the two classes of [models.py],
    [NearEarthObject] and [CloseApproach], and of the Python built-ins they
    call ([str], [float], [==] on floats, [repr], the format specifications
    [.2f] and [.3f]), followed by the properties of the model.

    Python objects live in a store and are named by their address; a method
    is a computation over the store that returns a value or raises. *)

From Stdlib Require Import ZArith Ascii String List Lia.
From Stdlib Require Import Floats.SpecFloat Numbers.DecimalString.
From stdpp Require Import gmap strings.

Local Open Scope Z_scope.

(** ** Exceptions and results *)

(** The exceptions the model can raise.  [ValueError] carries the message.
    [AttributeError] is the read of an attribute that was never assigned.
    [DanglingReference] is an artefact of the store model (an address with no
    object behind it); Python references are always live. *)
Inductive exn :=
  | ValueError (msg : string)
  | AttributeError (attr : string)
  | DanglingReference.

Inductive result (A : Type) :=
  | Ok (a : A)
  | Raise (e : exn).
Arguments Ok {A} a.
Arguments Raise {A} e.

Definition is_raise {A} (r : result A) : bool :=
  match r with Ok _ => false | Raise _ => true end.

(** ** Python built-ins *)

Module Py.

(** *** Characters and strings

    A Python [str] is modelled by a string of ASCII code points. *)

Definition code (c : ascii) : Z := Z.of_N (N_of_ascii c).
Definition chr (n : Z) : ascii := ascii_of_N (Z.to_N n).

Definition str1 (c : ascii) : string := String c EmptyString.

Definition is_digit (c : ascii) : bool := (48 <=? code c) && (code c <=? 57).

(** [Py_ISSPACE]: tab, line feed, vertical tab, form feed, carriage return,
    space. *)
Definition is_space (c : ascii) : bool :=
  ((9 <=? code c) && (code c <=? 13)) || (code c =? 32).

Definition lower (c : ascii) : ascii :=
  if (65 <=? code c) && (code c <=? 90) then chr (code c + 32) else c.

Fixpoint lower_str (s : string) : string :=
  match s with
  | EmptyString => EmptyString
  | String c r => String (lower c) (lower_str r)
  end.

Fixpoint rev_str (s acc : string) : string :=
  match s with
  | EmptyString => acc
  | String c r => rev_str r (String c acc)
  end.

Fixpoint mem_char (c : ascii) (s : string) : bool :=
  match s with
  | EmptyString => false
  | String d r => Ascii.eqb c d || mem_char c r
  end.

Fixpoint starts_with (p s : string) : bool :=
  match p, s with
  | EmptyString, _ => true
  | String a p', String b s' => Ascii.eqb a b && starts_with p' s'
  | String _ _, EmptyString => false
  end.

(** [p in s] for strings. *)
Fixpoint contains (p s : string) : bool :=
  starts_with p s ||
  match s with
  | EmptyString => false
  | String _ r => contains p r
  end.

(** Decimal rendering of a natural number, as [str(n)] of an [int]. *)
Definition str_of_N (n : N) : string := NilZero.string_of_uint (N.to_uint n).

Fixpoint zeros (n : nat) : string :=
  match n with
  | O => EmptyString
  | S k => String "0" (zeros k)
  end.

(** [s.rjust(width, '0')]. *)
Definition zero_pad (width : nat) (s : string) : string :=
  zeros (width - String.length s) +:+ s.

(** *** Floats: IEEE-754 binary64 *)

Definition float := spec_float.
Definition prec : Z := 53.
Definition emax : Z := 1024.

(** [x == y] on floats: false as soon as one side is a NaN. *)
Definition float_eq (x y : float) : bool := SFeqb x y.

(** [math.isnan]. *)
Definition isnan (x : float) : bool :=
  match x with S754_nan => true | _ => false end.

(** The binary64 nearest to [m * 10^e] (ties to even), with sign [s];
    beyond the largest finite value the result is an infinity. *)
Definition float_of_decimal (s : bool) (m : N) (e : Z) : float :=
  match m with
  | N0 => S754_zero s
  | Npos p =>
      if 0 <=? e
      then binary_round prec emax s (p * Z.to_pos (10 ^ e))%positive 0
      else
        let '(q, e', l) :=
          SFdiv_core_binary prec emax (Zpos p) 0 (10 ^ (- e)) 0 in
        binary_round_aux prec emax s q e' l
  end.

(** *** [float(s)] for a string [s] *)

Definition digit_val (c : ascii) : N := Z.to_N (code c - 48).

(** Longest prefix of decimal digits, read on top of the accumulator:
    the value, the number of digits read, and the rest of the string. *)
Fixpoint span_digits (s : string) (acc : N) (n : nat) : N * nat * string :=
  match s with
  | String c r =>
      if is_digit c then span_digits r (10 * acc + digit_val c)%N (S n)
      else (acc, n, s)
  | EmptyString => (acc, n, s)
  end.

(** Underscores are dropped; each must stand between two digits
    ([prev] is the character before [s]). *)
Fixpoint remove_underscores (prev : ascii) (s : string) : option string :=
  match s with
  | EmptyString => if Ascii.eqb prev "_" then None else Some EmptyString
  | String c r =>
      if Ascii.eqb c "_" then
        if is_digit prev then remove_underscores c r else None
      else if Ascii.eqb prev "_" && negb (is_digit c) then None
      else option_map (String c) (remove_underscores c r)
  end.

Fixpoint lstrip (s : string) : string :=
  match s with
  | String c r => if is_space c then lstrip r else s
  | EmptyString => s
  end.

Definition rstrip (s : string) : string :=
  rev_str (lstrip (rev_str s EmptyString)) EmptyString.

Definition parse_sign (s : string) : bool * string :=
  match s with
  | String "-" r => (true, r)
  | String "+" r => (false, r)
  | _ => (false, s)
  end.

(** [inf], [infinity] and [nan], in any case, after the sign. *)
Definition parse_inf_or_nan (sgn : bool) (s : string) : option float :=
  let t := lower_str s in
  if String.eqb t "inf" || String.eqb t "infinity" then Some (S754_infinity sgn)
  else if String.eqb t "nan" then Some S754_nan
  else None.

(** Digits with an optional point and an optional exponent; at least one
    digit in the mantissa, at least one in the exponent when there is one,
    and nothing after. *)
Definition parse_decimal (sgn : bool) (s : string) : option float :=
  let '(ip, ni, r1) := span_digits s 0%N 0%nat in
  let '(m, nf, r2) :=
    match r1 with
    | String "." r => span_digits r ip 0%nat
    | _ => (ip, 0%nat, r1)
    end in
  if (ni + nf =? 0)%nat then None
  else
    match r2 with
    | EmptyString => Some (float_of_decimal sgn m (- Z.of_nat nf))
    | String c r3 =>
        if Ascii.eqb (lower c) "e" then
          let '(es, r4) := parse_sign r3 in
          let '(ev, ne, r5) := span_digits r4 0%N 0%nat in
          if (ne =? 0)%nat then None
          else
            match r5 with
            | EmptyString =>
                let e := if es then - Z.of_N ev else Z.of_N ev in
                Some (float_of_decimal sgn m (e - Z.of_nat nf))
            | String _ _ => None
            end
        else None
    end.

Definition parse_float (s : string) : option float :=
  match remove_underscores "000" s with
  | None => None
  | Some t =>
      let '(sgn, r) := parse_sign (rstrip (lstrip t)) in
      match parse_inf_or_nan sgn r with
      | Some x => Some x
      | None => parse_decimal sgn r
      end
  end.

(** *** [repr(s)] for a string [s] *)

Definition squote : ascii := chr 39.
Definition dquote : ascii := chr 34.
Definition backslash : ascii := chr 92.

Definition hex_digit (n : Z) : ascii :=
  if n <? 10 then chr (48 + n) else chr (87 + n).

Definition repr_char (quote c : ascii) : string :=
  if Ascii.eqb c quote || Ascii.eqb c backslash then String backslash (str1 c)
  else if code c =? 9 then String backslash "t"
  else if code c =? 10 then String backslash "n"
  else if code c =? 13 then String backslash "r"
  else if (code c <? 32) || (code c =? 127) then
    String backslash
      (String "x" (String (hex_digit (code c / 16)) (str1 (hex_digit (code c mod 16)))))
  else str1 c.

Fixpoint repr_chars (quote : ascii) (s : string) : string :=
  match s with
  | EmptyString => EmptyString
  | String c r => repr_char quote c +:+ repr_chars quote r
  end.

(** Single quotes, unless the string holds a single quote and no double
    quote. *)
Definition repr_str (s : string) : string :=
  let quote :=
    if mem_char squote s && negb (mem_char dquote s) then dquote else squote in
  String quote (repr_chars quote s +:+ str1 quote).

Definition repr_bool (b : bool) : string := if b then "True" else "False".

(** [repr] of a value that is [None] or a string. *)
Definition repr_option_str (o : option string) : string :=
  match o with
  | Some s => repr_str s
  | None => "None"
  end.

(** [str(s)] for a string [s]. *)
Definition str (s : string) : string := s.

(** [float(s)]: a [ValueError] when [s] is not a float literal. *)
Definition float_of_str (s : string) : result float :=
  match parse_float s with
  | Some x => Ok x
  | None => Raise (ValueError ("could not convert string to float: " +:+ repr_str s))
  end.

(** *** [format(x, '.kf')] for a float [x] *)

(** [num / den] rounded to the nearest integer, ties to even
    ([0 <= num], [0 < den]). *)
Definition round_half_even (num den : Z) : Z :=
  let q := num / den in
  match 2 * (num mod den) ?= den with
  | Lt => q
  | Gt => q + 1
  | Eq => if Z.even q then q else q + 1
  end.

(** The digits of [n], read as a count of units of [10^-k]. *)
Definition fixed_digits (k : nat) (n : N) : string :=
  let s := zero_pad (S k) (str_of_N n) in
  let i := (String.length s - k)%nat in
  match k with
  | O => s
  | S _ => substring 0 i s +:+ "." +:+ substring i k s
  end.

Definition sign_str (s : bool) : string := if s then "-" else EmptyString.

Definition format_f (k : nat) (x : float) : string :=
  match x with
  | S754_nan => "nan"
  | S754_infinity s => sign_str s +:+ "inf"
  | S754_zero s => sign_str s +:+ fixed_digits k 0%N
  | S754_finite s m e =>
      let scaled :=
        if 0 <=? e then Zpos m * 2 ^ e * 10 ^ Z.of_nat k
        else round_half_even (Zpos m * 10 ^ Z.of_nat k) (2 ^ (- e)) in
      sign_str s +:+ fixed_digits k (Z.to_N scaled)
  end.

End Py.

(** ** The [helpers] module

    [models.py] imports [cd_to_datetime] and [datetime_to_str] from
    [helpers.py]. *)

Module helpers.

(** A naive [datetime.datetime] value. *)
Record datetime := mk_datetime {
  year : Z;
  month : Z;
  day : Z;
  hour : Z;
  minute : Z;
  second : Z;
  microsecond : Z
}.

Definition is_leap (y : Z) : bool :=
  (y mod 4 =? 0) && negb (y mod 100 =? 0) || (y mod 400 =? 0).

Definition days_in_month (y m : Z) : Z :=
  if m =? 2 then (if is_leap y then 29 else 28)
  else if (m =? 4) || (m =? 6) || (m =? 9) || (m =? 11) then 30
  else 31.

(** The range checks of the [datetime] constructor. *)
Definition datetime_valid (dt : datetime) : bool :=
  (1 <=? year dt) && (year dt <=? 9999) &&
  (1 <=? month dt) && (month dt <=? 12) &&
  (1 <=? day dt) && (day dt <=? days_in_month (year dt) (month dt)) &&
  (0 <=? hour dt) && (hour dt <? 24) &&
  (0 <=? minute dt) && (minute dt <? 60) &&
  (0 <=? second dt) && (second dt <? 60) &&
  (0 <=? microsecond dt) && (microsecond dt <? 1000000).

(** [n] in decimal, zero-padded on the left to [width] characters. *)
Definition decimal (width : nat) (n : Z) : string :=
  Py.zero_pad width (Py.str_of_N (Z.to_N n)).

(** Modelled from the spec: [datetime_to_str] of [helpers.py], which is not
    among the sources; the spec gives it as the formatting function from a
    datetime value to the canonical string [YYYY-MM-DD HH:MM]. *)
Definition datetime_to_str (dt : datetime) : string :=
  decimal 4 (year dt) +:+ "-" +:+ decimal 2 (month dt) +:+ "-" +:+
  decimal 2 (day dt) +:+ " " +:+ decimal 2 (hour dt) +:+ ":" +:+
  decimal 2 (minute dt).

(** [n] digits at the head of [s], as a number, and the rest. *)
Definition take_digits (n : nat) (s : string) : option (Z * string) :=
  let '(v, k, _) := Py.span_digits (substring 0 n s) 0%N 0%nat in
  if (k =? n)%nat
  then Some (Z.of_N v, substring n (String.length s - n) s)
  else None.

Definition expect (p s : string) : option string :=
  if Py.starts_with p s
  then Some (substring (String.length p) (String.length s - String.length p) s)
  else None.

Definition month_names : list string :=
  ["Jan"; "Feb"; "Mar"; "Apr"; "May"; "Jun";
   "Jul"; "Aug"; "Sep"; "Oct"; "Nov"; "Dec"].

Fixpoint month_of_name (names : list string) (i : Z) (s : string)
  : option (Z * string) :=
  match names with
  | [] => None
  | n :: rest =>
      match expect n s with
      | Some r => Some (i, r)
      | None => month_of_name rest (i + 1) s
      end
  end.

(** Modelled from the spec: [cd_to_datetime] of [helpers.py], which is not
    among the sources; the spec gives it as the parsing function from a
    compact date-time string (date and hour:minute, no seconds) to a
    datetime value, failing on a malformed string, and uses it on
    [1900-Jan-01 12:00].  This instance reads the fixed-width form
    [YYYY-Mon-DD HH:MM]; the model of [CloseApproach] takes the parser as
    a parameter and does not depend on it. *)
Definition cd_to_datetime (s : string) : result datetime :=
  let parsed :=
    '(y, r) ← take_digits 4 s;
    r ← expect "-" r;
    '(m, r) ← month_of_name month_names 1 r;
    r ← expect "-" r;
    '(d, r) ← take_digits 2 r;
    r ← expect " " r;
    '(H, r) ← take_digits 2 r;
    r ← expect ":" r;
    '(M, r) ← take_digits 2 r;
    let dt := mk_datetime y m d H M 0 0 in
    if String.eqb r EmptyString && datetime_valid dt then Some dt else None in
  match parsed with
  | Some dt => Ok dt
  | None =>
      Raise (ValueError ("time data " +:+ Py.repr_str s +:+
                         " does not match the date-time format"))
  end.

End helpers.
Import helpers.

(** ** Objects and the store *)

(** The address of an object. *)
Definition loc := nat.

(** The attributes of a [NearEarthObject] instance.  [_fullname] is absent
    until the [fullname] property is first read. *)
Record NearEarthObject := mk_neo {
  designation : string;
  name : option string;
  diameter : Py.float;
  hazardous : bool;
  approaches : list loc;
  _fullname : option string
}.

(** The attributes of a [CloseApproach] instance; [neo] is [None] or the
    address of a [NearEarthObject]. *)
Record CloseApproach := mk_approach {
  _designation : string;
  time : datetime;
  distance : Py.float;
  velocity : Py.float;
  neo : option loc
}.

Record store := mk_store {
  neos : gmap loc NearEarthObject;
  cas : gmap loc CloseApproach
}.

Definition empty_store : store := mk_store ∅ ∅.

(** [self._fullname = v] *)
Definition set__fullname (v : string) (o : NearEarthObject) : NearEarthObject :=
  mk_neo (designation o) (name o) (diameter o) (hazardous o) (approaches o) (Some v).

(** A computation over the store that returns or raises. *)
Definition M (A : Type) : Type := store -> result A * store.

Definition ret {A} (a : A) : M A := fun h => (Ok a, h).

Definition raise {A} (e : exn) : M A := fun h => (Raise e, h).

Definition bind {A B} (c : M A) (k : A -> M B) : M B :=
  fun h =>
    match c h with
    | (Ok a, h') => k a h'
    | (Raise e, h') => (Raise e, h')
    end.

Notation "x <- c ;; k" := (bind c (fun x => k))
  (at level 100, c at next level, right associativity).
Notation "c ;; k" := (bind c (fun _ => k))
  (at level 100, right associativity).

(** The result of a call that does not touch the store. *)
Definition lift {A} (r : result A) : M A := fun h => (r, h).

Definition get_neo (l : loc) : M NearEarthObject :=
  fun h =>
    match neos h !! l with
    | Some o => (Ok o, h)
    | None => (Raise DanglingReference, h)
    end.

Definition put_neo (l : loc) (o : NearEarthObject) : M unit :=
  fun h => (Ok tt, mk_store (<[l := o]> (neos h)) (cas h)).

Definition get_approach (l : loc) : M CloseApproach :=
  fun h =>
    match cas h !! l with
    | Some c => (Ok c, h)
    | None => (Raise DanglingReference, h)
    end.

(** A new object at an address not in use. *)
Definition new_neo (o : NearEarthObject) : M loc :=
  fun h =>
    let l := fresh (dom (neos h)) in
    (Ok l, mk_store (<[l := o]> (neos h)) (cas h)).

Definition new_approach (c : CloseApproach) : M loc :=
  fun h =>
    let l := fresh (dom (cas h)) in
    (Ok l, mk_store (neos h) (<[l := c]> (cas h))).

(** ** class [NearEarthObject] *)

(** [NearEarthObject(designation, name, diameter, hazardous)], on raw string
    fields; returns the address of the new object. *)
Definition NearEarthObject_init (designation name diameter hazardous : string)
  : M loc :=
  let designation' := Py.str designation in
  let name' :=
    if negb (String.eqb name EmptyString) then Some (Py.str name) else None in
  diameter' <- lift (if negb (String.eqb diameter EmptyString)
                     then Py.float_of_str diameter
                     else Py.float_of_str "nan") ;;
  let hazardous' := if String.eqb hazardous "Y" then true else false in
  new_neo (mk_neo designation' name' diameter' hazardous' [] None).

(** The [fullname] property. *)
Definition NearEarthObject_fullname (self : loc) : M string :=
  o <- get_neo self ;;
  match name o with
  | Some n =>
      put_neo self (set__fullname (designation o +:+ " (" +:+ n +:+ ")") o)
  | None =>
      put_neo self (set__fullname (designation o) o)
  end ;;
  o <- get_neo self ;;
  match _fullname o with
  | Some v => ret v
  | None => raise (AttributeError "_fullname")
  end.

(** [NearEarthObject.__str__] *)
Definition NearEarthObject_str (self : loc) : M string :=
  fullname <- NearEarthObject_fullname self ;;
  o <- get_neo self ;;
  nan <- lift (Py.float_of_str "nan") ;;
  let diam :=
    if Py.float_eq (diameter o) nan then "an unknown diameter"
    else "a diameter of " +:+ Py.format_f 3 (diameter o) in
  ret ("The NearEarthObject '" +:+ fullname +:+ "' has " +:+ diam +:+
       " km and " +:+ (if hazardous o then "is" else "is not") +:+
       " potentially hazardous.").

(** [NearEarthObject.__repr__] *)
Definition NearEarthObject_repr (self : loc) : M string :=
  o <- get_neo self ;;
  ret ("NearEarthObject(designation=" +:+ Py.repr_str (designation o) +:+
       ", name=" +:+ Py.repr_option_str (name o) +:+ ", " +:+
       "diameter=" +:+ Py.format_f 3 (diameter o) +:+
       ", hazardous=" +:+ Py.repr_bool (hazardous o) +:+ ")").

(** ** class [CloseApproach] *)

Section CloseApproach.

(** [helpers.cd_to_datetime] *)
Variable cd_to_datetime : string -> result datetime.

(** [CloseApproach(designation, time, distance, velocity)], on raw string
    fields; returns the address of the new object. *)
Definition CloseApproach_init (designation time distance velocity : string)
  : M loc :=
  let _designation' := Py.str designation in
  time' <- lift (cd_to_datetime time) ;;
  distance' <- lift (Py.float_of_str distance) ;;
  velocity' <- lift (Py.float_of_str velocity) ;;
  new_approach (mk_approach _designation' time' distance' velocity' None).

End CloseApproach.

(** The [time_str] property. *)
Definition CloseApproach_time_str (self : loc) : M string :=
  c <- get_approach self ;;
  ret (datetime_to_str (time c)).

(** [CloseApproach.__str__] *)
Definition CloseApproach_str (self : loc) : M string :=
  time_str <- CloseApproach_time_str self ;;
  c <- get_approach self ;;
  who <- match neo c with
         | Some n => NearEarthObject_fullname n
         | None => ret "None"
         end ;;
  ret ("At " +:+ time_str +:+ ", '" +:+ who +:+
       "' approaches Earth at a distance of" +:+
       " " +:+ Py.format_f 2 (distance c) +:+ " au and a velocity of " +:+
       Py.format_f 2 (velocity c) +:+ " km/s.").

(** [CloseApproach.__repr__] *)
Definition CloseApproach_repr (self : loc) : M string :=
  time_str <- CloseApproach_time_str self ;;
  c <- get_approach self ;;
  neo_repr <- match neo c with
              | Some n => NearEarthObject_repr n
              | None => ret "None"
              end ;;
  ret ("CloseApproach(time=" +:+ Py.repr_str time_str +:+
       ", distance=" +:+ Py.format_f 2 (distance c) +:+ ", " +:+
       "velocity=" +:+ Py.format_f 2 (velocity c) +:+
       ", neo=" +:+ neo_repr +:+ ")").

(** ** Sequences of operations *)

(** The operations of the two classes: the constructors, the properties and
    the string conversions. *)
Inductive operation :=
  | New_NearEarthObject (designation name diameter hazardous : string)
  | New_CloseApproach (designation time distance velocity : string)
  | Read_fullname (self : loc)
  | Str_NearEarthObject (self : loc)
  | Repr_NearEarthObject (self : loc)
  | Read_time_str (self : loc)
  | Str_CloseApproach (self : loc)
  | Repr_CloseApproach (self : loc).

Definition discard {A} (c : M A) : M unit := _ <- c ;; ret tt.

Definition perform (cd : string -> result datetime) (op : operation) : M unit :=
  match op with
  | New_NearEarthObject d n dia hz => discard (NearEarthObject_init d n dia hz)
  | New_CloseApproach d t dist vel => discard (CloseApproach_init cd d t dist vel)
  | Read_fullname l => discard (NearEarthObject_fullname l)
  | Str_NearEarthObject l => discard (NearEarthObject_str l)
  | Repr_NearEarthObject l => discard (NearEarthObject_repr l)
  | Read_time_str l => discard (CloseApproach_time_str l)
  | Str_CloseApproach l => discard (CloseApproach_str l)
  | Repr_CloseApproach l => discard (CloseApproach_repr l)
  end.

(** The store after a sequence of operations, each run whether or not an
    earlier one raised (the caller catches). *)
Fixpoint perform_all (cd : string -> result datetime) (ops : list operation)
  (h : store) : store :=
  match ops with
  | [] => h
  | op :: rest => perform_all cd rest (snd (perform cd op h))
  end.

(** ** Specification vocabulary *)

(** The value the [fullname] property computes for an object. *)
Definition fullname_of (o : NearEarthObject) : string :=
  match name o with
  | Some n => designation o +:+ " (" +:+ n +:+ ")"
  | None => designation o
  end.

(** The store with [_fullname] of the object at [l] set to [v]. *)
Definition with_fullname (l : loc) (o : NearEarthObject) (v : string) (h : store)
  : store :=
  mk_store (<[l := set__fullname v o]> (neos h)) (cas h).

(** The sentence of [CloseApproach.__str__]. *)
Definition approach_sentence (time_str who : string) (dist vel : Py.float)
  : string :=
  "At " +:+ time_str +:+ ", '" +:+ who +:+
  "' approaches Earth at a distance of " +:+ Py.format_f 2 dist +:+
  " au and a velocity of " +:+ Py.format_f 2 vel +:+ " km/s.".

(** The sentence of [NearEarthObject.__str__] for a diameter phrase. *)
Definition neo_sentence (fullname phrase : string) (hz : bool) : string :=
  "The NearEarthObject '" +:+ fullname +:+ "' has " +:+ phrase +:+
  " km and " +:+ (if hz then "is" else "is not") +:+ " potentially hazardous.".

Definition is_digit_str (s : string) : bool :=
  forallb Py.is_digit (list_ascii_of_string s).

(** [s] has the shape [dddd-dd-dd dd:dd], sixteen characters. *)
Definition is_date_hour_minute (s : string) : bool :=
  (String.length s =? 16)%nat &&
  is_digit_str (substring 0 4 s) && String.eqb (substring 4 1 s) "-" &&
  is_digit_str (substring 5 2 s) && String.eqb (substring 7 1 s) "-" &&
  is_digit_str (substring 8 2 s) && String.eqb (substring 10 1 s) " " &&
  is_digit_str (substring 11 2 s) && String.eqb (substring 13 1 s) ":" &&
  is_digit_str (substring 14 2 s).

(** The same instant with other seconds and microseconds. *)
Definition with_seconds (sec us : Z) (dt : datetime) : datetime :=
  mk_datetime (year dt) (month dt) (day dt) (hour dt) (minute dt) sec us.

(** An object without its [_fullname] attribute. *)
Definition erase_fullname (o : NearEarthObject) : NearEarthObject :=
  mk_neo (designation o) (name o) (diameter o) (hazardous o) (approaches o) None.

(** Every object of [h] is still in [h'], with the same attributes apart
    from [_fullname]. *)
Definition keeps_neos (h h' : store) : Prop :=
  forall l o, neos h !! l = Some o ->
    exists o', neos h' !! l = Some o' /\ erase_fullname o' = erase_fullname o.

Definition two_digits (s : string) : bool :=
  match s with
  | String a (String b EmptyString) => Py.is_digit a && Py.is_digit b
  | _ => false
  end.

Definition four_digits (s : string) : bool :=
  match s with
  | String a (String b (String c (String d EmptyString))) =>
      Py.is_digit a && Py.is_digit b && Py.is_digit c && Py.is_digit d
  | _ => false
  end.

(** What one operation can do to the store: nothing, assign [_fullname]
    of a live object with the value of its [fullname], or add a new object
    with no link at an address not in use. *)
Inductive effect (h : store) : store -> Prop :=
  | effect_none : effect h h
  | effect_fullname l o :
      neos h !! l = Some o ->
      effect h (with_fullname l o (fullname_of o) h)
  | effect_new_neo l o :
      neos h !! l = None -> approaches o = [] -> _fullname o = None ->
      effect h (mk_store (<[l := o]> (neos h)) (cas h))
  | effect_new_approach l c :
      cas h !! l = None -> neo c = None ->
      effect h (mk_store (neos h) (<[l := c]> (cas h))).

(** No object is linked, and a [_fullname] that was assigned holds the
    value [fullname] computes. *)
Definition consistent (h : store) : Prop :=
  (forall l o, neos h !! l = Some o ->
     approaches o = [] /\
     (_fullname o = None \/ _fullname o = Some (fullname_of o))) /\
  (forall l c, cas h !! l = Some c -> neo c = None).



(** The character of the decimal digit [d]. *)
Definition digit_char (d : Z) : ascii := Py.chr (48 + d).

(** The last two, and the last four, decimal digits of [n], the most
    significant first. *)
Definition digits2 (n : Z) : string :=
  String (digit_char (n / 10 mod 10)) (String (digit_char (n mod 10)) EmptyString).

Definition digits4 (n : Z) : string :=
  String (digit_char (n / 1000 mod 10))
    (String (digit_char (n / 100 mod 10)) (digits2 n)).


(** Unfold the plumbing of a computation run on a store. *)
Ltac run :=
  unfold discard, bind, ret, raise, lift, get_neo, put_neo, get_approach,
    new_neo, new_approach; simpl.

(** ** Basic facts *)

Lemma float_of_str_nan : Py.float_of_str "nan" = Ok S754_nan.
Proof. reflexivity. Qed.

(** A comparison with a NaN is false, whatever the other side. *)
Lemma float_eq_nan_r (x : Py.float) : Py.float_eq x S754_nan = false.
Proof. destruct x as [s|s| |s m e]; reflexivity. Qed.

Lemma NearEarthObject_fullname_run h l o :
  neos h !! l = Some o ->
  NearEarthObject_fullname l h =
    (Ok (fullname_of o), with_fullname l o (fullname_of o) h).
Proof.
  intros Hl. unfold NearEarthObject_fullname, fullname_of, with_fullname.
  run. rewrite Hl.
  destruct (name o) as [n|]; simpl; rewrite lookup_insert_eq; reflexivity.
Qed.

Lemma NearEarthObject_fullname_dangling h l :
  neos h !! l = None ->
  NearEarthObject_fullname l h = (Raise DanglingReference, h).
Proof.
  intros Hl. unfold NearEarthObject_fullname. run. rewrite Hl. reflexivity.
Qed.

(** The description always takes the branch of the known diameter. *)
Lemma NearEarthObject_str_run h l o :
  neos h !! l = Some o ->
  NearEarthObject_str l h =
    (Ok (neo_sentence (fullname_of o)
           ("a diameter of " +:+ Py.format_f 3 (diameter o)) (hazardous o)),
     with_fullname l o (fullname_of o) h).
Proof.
  intros Hl. unfold NearEarthObject_str. unfold bind at 1.
  rewrite (NearEarthObject_fullname_run h l o Hl).
  run. rewrite lookup_insert_eq. simpl.
  rewrite float_eq_nan_r. reflexivity.
Qed.

Lemma NearEarthObject_str_dangling h l :
  neos h !! l = None -> NearEarthObject_str l h = (Raise DanglingReference, h).
Proof.
  intros Hl. unfold NearEarthObject_str. unfold bind at 1.
  rewrite (NearEarthObject_fullname_dangling h l Hl). reflexivity.
Qed.

Lemma NearEarthObject_repr_store h l : snd (NearEarthObject_repr l h) = h.
Proof.
  unfold NearEarthObject_repr. run. destruct (neos h !! l); reflexivity.
Qed.

Lemma NearEarthObject_init_run d n dia hz h :
  NearEarthObject_init d n dia hz h =
    match (if negb (String.eqb dia EmptyString)
           then Py.float_of_str dia else Py.float_of_str "nan") with
    | Ok x =>
        let o := mk_neo d (if negb (String.eqb n EmptyString) then Some n else None)
                   x (if String.eqb hz "Y" then true else false) [] None in
        (Ok (fresh (dom (neos h))),
         mk_store (<[fresh (dom (neos h)) := o]> (neos h)) (cas h))
    | Raise e => (Raise e, h)
    end.
Proof.
  unfold NearEarthObject_init. run.
  destruct (if negb (String.eqb dia EmptyString) then _ else _); reflexivity.
Qed.

(** What a successful construction stored. *)
Lemma NearEarthObject_init_ok d n dia hz h l h' :
  NearEarthObject_init d n dia hz h = (Ok l, h') ->
  exists x,
    (if negb (String.eqb dia EmptyString)
     then Py.float_of_str dia else Py.float_of_str "nan") = Ok x /\
    neos h !! l = None /\
    cas h' = cas h /\
    neos h' = <[l := mk_neo d (if negb (String.eqb n EmptyString) then Some n else None)
                        x (if String.eqb hz "Y" then true else false) [] None]> (neos h).
Proof.
  rewrite NearEarthObject_init_run.
  destruct (if negb (String.eqb dia EmptyString) then _ else _) as [x|e];
    [|discriminate].
  simpl. intros H. injection H as <- <-. exists x. split; [reflexivity|].
  split; [|split; reflexivity].
  apply not_elem_of_dom. apply is_fresh.
Qed.

Lemma CloseApproach_time_str_run h l c :
  cas h !! l = Some c ->
  CloseApproach_time_str l h = (Ok (datetime_to_str (time c)), h).
Proof. intros Hl. unfold CloseApproach_time_str. run. rewrite Hl. reflexivity. Qed.

Lemma CloseApproach_time_str_store h l : snd (CloseApproach_time_str l h) = h.
Proof.
  unfold CloseApproach_time_str. run. destruct (cas h !! l); reflexivity.
Qed.

Lemma CloseApproach_str_unlinked h l c :
  cas h !! l = Some c -> neo c = None ->
  CloseApproach_str l h =
    (Ok (approach_sentence (datetime_to_str (time c)) "None"
           (distance c) (velocity c)), h).
Proof.
  intros Hl Hn. unfold CloseApproach_str. unfold bind at 1.
  rewrite (CloseApproach_time_str_run h l c Hl).
  run. rewrite Hl, Hn. reflexivity.
Qed.

Lemma CloseApproach_str_linked h l c n o :
  cas h !! l = Some c -> neo c = Some n -> neos h !! n = Some o ->
  CloseApproach_str l h =
    (Ok (approach_sentence (datetime_to_str (time c)) (fullname_of o)
           (distance c) (velocity c)),
     with_fullname n o (fullname_of o) h).
Proof.
  intros Hl Hn Ho. unfold CloseApproach_str. unfold bind at 1.
  rewrite (CloseApproach_time_str_run h l c Hl).
  unfold bind at 1, get_approach. rewrite Hl, Hn. unfold bind at 1.
  rewrite (NearEarthObject_fullname_run h n o Ho). reflexivity.
Qed.

(** ** NearEarthObject: construction and description *)

(** An object whose diameter is a NaN is described with "a diameter of
    nan": the comparison with [float('nan')] does not see it. *)
Lemma NearEarthObject_str_of_nan h l o :
  neos h !! l = Some o ->
  Py.isnan (diameter o) = true ->
  fst (NearEarthObject_str l h) =
    Ok (neo_sentence (fullname_of o) "a diameter of nan" (hazardous o)).
Proof.
  intros Hl Hnan. rewrite (NearEarthObject_str_run h l o Hl).
  destruct (diameter o); try discriminate Hnan. reflexivity.
Qed.

(** The scenario of 433 Eros. *)
Example eros :
  exists l h o,
    NearEarthObject_init "433" "Eros" "16.84" "N" empty_store = (Ok l, h) /\
    neos h !! l = Some o /\
    hazardous o = false /\
    fst (NearEarthObject_fullname l h) = Ok "433 (Eros)" /\
    fst (NearEarthObject_str l h) =
      Ok "The NearEarthObject '433 (Eros)' has a diameter of 16.840 km and is not potentially hazardous." /\
    fst (NearEarthObject_repr l h) =
      Ok "NearEarthObject(designation='433', name='Eros', diameter=16.840, hazardous=False)".
Proof.
  eexists _, _, _. repeat split; vm_compute; reflexivity.
Qed.

(** C1 (the code departs from it): an object built with an empty diameter
    holds a NaN, and a proper not-a-number test sees it, but its description
    compares the diameter to a NaN with [==], which is false for every
    float: the description of the object built from the designation
    "2020 AB", an empty name, an empty diameter and the flag "Y" reads
    "a diameter of nan" and does not hold the "unknown diameter" phrase. *)
Theorem C1_unknown_diameter_is_not_reported :
  exists l h o,
    NearEarthObject_init "2020 AB" EmptyString EmptyString "Y" empty_store
      = (Ok l, h) /\
    neos h !! l = Some o /\
    Py.isnan (diameter o) = true /\
    fst (NearEarthObject_str l h) =
      Ok "The NearEarthObject '2020 AB' has a diameter of nan km and is potentially hazardous." /\
    forall s, fst (NearEarthObject_str l h) = Ok s ->
              Py.contains "unknown diameter" s = false.
Proof.
  eexists _, _, _. split; [vm_compute; reflexivity|].
  split; [vm_compute; reflexivity|].
  split; [reflexivity|].
  split; [vm_compute; reflexivity|].
  intros s Hs. vm_compute in Hs. injection Hs as <-. vm_compute. reflexivity.
Qed.





(** The flag for the inputs "Y", "N", the empty string and "y". *)
Example hazardous_flags :
  map (fun hz =>
         match NearEarthObject_init "433" "Eros" "16.84" hz empty_store with
         | (Ok l, h) => hazardous <$> neos h !! l
         | (Raise _, _) => None
         end)
      ["Y"; "N"; EmptyString; "y"]
  = [Some true; Some false; Some false; Some false].
Proof. vm_compute. reflexivity. Qed.

(** C9: the stored name is never the empty string: it is [None] when the
    input is empty and the (then non-empty) input otherwise. *)
Theorem C9_name_never_empty (d n dia hz : string) (h h' : store) (l : loc) :
  NearEarthObject_init d n dia hz h = (Ok l, h') ->
  exists o,
    neos h' !! l = Some o /\
    name o <> Some EmptyString /\
    (n = EmptyString -> name o = None) /\
    (n <> EmptyString -> name o = Some n).
Proof.
  intros Hinit.
  destruct (NearEarthObject_init_ok _ _ _ _ _ _ _ Hinit) as (x & _ & _ & _ & Hn).
  eexists. split; [rewrite Hn; apply lookup_insert_eq|].
  simpl. destruct (String.eqb n EmptyString) eqn:E; simpl.
  - apply String.eqb_eq in E. split; [discriminate|].
    split; [reflexivity|]. intros; contradiction.
  - apply String.eqb_neq in E. split; [congruence|].
    split; [intros; contradiction|reflexivity].
Qed.

Lemma C9_name_never_empty_witness :
  exists o,
    neos (snd (NearEarthObject_init "2020 AB" EmptyString "1.5" "Y" empty_store))
      !! 0%nat = Some o /\
    name o <> Some EmptyString /\
    (EmptyString = EmptyString -> name o = None) /\
    (EmptyString <> EmptyString -> name o = Some EmptyString).
Proof.
  apply (C9_name_never_empty "2020 AB" EmptyString "1.5" "Y" empty_store).
  vm_compute. reflexivity.
Defined.

(** ** What the reads leave in the store *)

Lemma keeps_neos_refl h : keeps_neos h h.
Proof. intros l o Hl. exists o. split; [exact Hl|reflexivity]. Qed.

Lemma keeps_neos_trans h1 h2 h3 :
  keeps_neos h1 h2 -> keeps_neos h2 h3 -> keeps_neos h1 h3.
Proof.
  intros H12 H23 l o Hl.
  destruct (H12 l o Hl) as (o2 & Hl2 & E2).
  destruct (H23 l o2 Hl2) as (o3 & Hl3 & E3).
  exists o3. split; [exact Hl3|congruence].
Qed.

Lemma keeps_neos_with_fullname h l o v :
  neos h !! l = Some o -> keeps_neos h (with_fullname l o v h).
Proof.
  intros Hl l' o' Hl'. unfold with_fullname. simpl.
  destruct (decide (l = l')) as [->|Hne].
  - rewrite lookup_insert_eq. eexists. split; [reflexivity|].
    rewrite Hl in Hl'. injection Hl' as <-. reflexivity.
  - rewrite lookup_insert_ne by exact Hne. exists o'. split; [exact Hl'|reflexivity].
Qed.

Lemma keeps_neos_same_neos h h' : neos h' = neos h -> keeps_neos h h'.
Proof. intros E l o Hl. exists o. rewrite E. split; [exact Hl|reflexivity]. Qed.

Lemma NearEarthObject_fullname_keeps h l :
  keeps_neos h (snd (NearEarthObject_fullname l h)).
Proof.
  destruct (neos h !! l) as [o|] eqn:Hl.
  - rewrite (NearEarthObject_fullname_run h l o Hl).
    apply keeps_neos_with_fullname, Hl.
  - rewrite (NearEarthObject_fullname_dangling h l Hl). apply keeps_neos_refl.
Qed.

Lemma NearEarthObject_str_keeps h l :
  keeps_neos h (snd (NearEarthObject_str l h)).
Proof.
  destruct (neos h !! l) as [o|] eqn:Hl.
  - rewrite (NearEarthObject_str_run h l o Hl).
    apply keeps_neos_with_fullname, Hl.
  - rewrite (NearEarthObject_str_dangling h l Hl). apply keeps_neos_refl.
Qed.

Lemma NearEarthObject_init_keeps d n dia hz h :
  keeps_neos h (snd (NearEarthObject_init d n dia hz h)).
Proof.
  rewrite NearEarthObject_init_run.
  destruct (if negb (String.eqb dia EmptyString) then _ else _) as [x|e];
    simpl; [|apply keeps_neos_refl].
  intros l o Hl. exists o. split; [|reflexivity]. simpl.
  rewrite lookup_insert_ne; [exact Hl|].
  intros E. pose proof (is_fresh (dom (neos h))) as Hf.
  rewrite E in Hf. apply Hf. apply elem_of_dom. eexists; exact Hl.
Qed.

Lemma CloseApproach_init_run cd d t dist vel h :
  CloseApproach_init cd d t dist vel h =
    match cd t with
    | Raise e => (Raise e, h)
    | Ok t' =>
        match Py.float_of_str dist with
        | Raise e => (Raise e, h)
        | Ok x =>
            match Py.float_of_str vel with
            | Raise e => (Raise e, h)
            | Ok v =>
                (Ok (fresh (dom (cas h))),
                 mk_store (neos h)
                   (<[fresh (dom (cas h)) := mk_approach d t' x v None]> (cas h)))
            end
        end
    end.
Proof.
  unfold CloseApproach_init. run.
  destruct (cd t); [|reflexivity].
  destruct (Py.float_of_str dist); [|reflexivity].
  destruct (Py.float_of_str vel); reflexivity.
Qed.

Lemma CloseApproach_init_neos cd d t dist vel h :
  neos (snd (CloseApproach_init cd d t dist vel h)) = neos h.
Proof.
  rewrite CloseApproach_init_run.
  destruct (cd t); [|reflexivity].
  destruct (Py.float_of_str dist); [|reflexivity].
  destruct (Py.float_of_str vel); reflexivity.
Qed.

Lemma CloseApproach_str_keeps h l : keeps_neos h (snd (CloseApproach_str l h)).
Proof.
  destruct (cas h !! l) as [c|] eqn:Hl.
  - destruct (neo c) as [n|] eqn:Hn.
    + destruct (neos h !! n) as [o|] eqn:Ho.
      * rewrite (CloseApproach_str_linked h l c n o Hl Hn Ho).
        apply keeps_neos_with_fullname, Ho.
      * unfold CloseApproach_str. unfold bind at 1.
        rewrite (CloseApproach_time_str_run h l c Hl).
        unfold bind at 1, get_approach. rewrite Hl, Hn. unfold bind at 1.
        rewrite (NearEarthObject_fullname_dangling h n Ho). apply keeps_neos_refl.
    + rewrite (CloseApproach_str_unlinked h l c Hl Hn). apply keeps_neos_refl.
  - unfold CloseApproach_str, CloseApproach_time_str. run. rewrite Hl.
    apply keeps_neos_refl.
Qed.

Lemma CloseApproach_repr_store h l : snd (CloseApproach_repr l h) = h.
Proof.
  unfold CloseApproach_repr, CloseApproach_time_str, NearEarthObject_repr. run.
  destruct (cas h !! l) as [c|] eqn:Hl; simpl; [|reflexivity].
  rewrite Hl.
  destruct (neo c) as [n|]; [|reflexivity].
  destruct (neos h !! n); reflexivity.
Qed.

Lemma perform_keeps cd op h : keeps_neos h (snd (perform cd op h)).
Proof.
  assert (D : forall A (c : M A) k, snd (discard c k) = snd (c k)).
  { intros A c k. unfold discard, bind, ret. destruct (c k) as [[a|e] k']; reflexivity. }
  destruct op; simpl; rewrite D.
  - apply NearEarthObject_init_keeps.
  - apply keeps_neos_same_neos, CloseApproach_init_neos.
  - apply NearEarthObject_fullname_keeps.
  - apply NearEarthObject_str_keeps.
  - rewrite NearEarthObject_repr_store. apply keeps_neos_refl.
  - rewrite CloseApproach_time_str_store. apply keeps_neos_refl.
  - apply CloseApproach_str_keeps.
  - rewrite CloseApproach_repr_store. apply keeps_neos_refl.
Qed.

Lemma perform_all_keeps cd ops h : keeps_neos h (perform_all cd ops h).
Proof.
  revert h. induction ops as [|op rest IH]; intros h; simpl.
  - apply keeps_neos_refl.
  - eapply keeps_neos_trans; [apply perform_keeps|apply IH].
Qed.

(** ** Reads and the state of the object *)

(** C4 as stated fails: reading [fullname] assigns the attribute
    [_fullname] of the object, so the object after the read is not the
    object before it. *)
Lemma C4_fullname_read_writes_the_object :
  ~ (forall h l o, neos h !! l = Some o ->
       neos (snd (NearEarthObject_fullname l h)) !! l = Some o).
Proof.
  intros H.
  specialize (H (snd (NearEarthObject_init "433" "Eros" "16.84" "N" empty_store))
                0%nat
                (mk_neo "433" (Some "Eros")
                        (S754_finite false 4740038607807447 (-48)) false [] None)).
  assert (E : neos (snd (NearEarthObject_init "433" "Eros" "16.84" "N" empty_store))
                 !! 0%nat
               = Some (mk_neo "433" (Some "Eros")
                         (S754_finite false 4740038607807447 (-48)) false [] None))
    by (vm_compute; reflexivity).
  apply H in E. apply (f_equal (fmap _fullname)) in E.
  vm_compute in E. discriminate E.
Qed.

(** C4, amended: [time_str] leaves the store as it is.  [fullname] returns
    the value computed from the designation and the name at the time of
    the read, whatever [_fullname] held, and assigns that value to the
    attribute [_fullname] of the object; the other attributes of the
    object, the other objects and the close approaches are unchanged. *)
Theorem C4_reads_and_the_store (h : store) (l : loc) (o : NearEarthObject) :
  neos h !! l = Some o ->
  (forall a, snd (CloseApproach_time_str a h) = h) /\
  exists v h',
    NearEarthObject_fullname l h = (Ok v, h') /\
    v = fullname_of o /\
    cas h' = cas h /\
    (forall l', l' <> l -> neos h' !! l' = neos h !! l') /\
    exists o',
      neos h' !! l = Some o' /\
      designation o' = designation o /\ name o' = name o /\
      diameter o' = diameter o /\ hazardous o' = hazardous o /\
      approaches o' = approaches o /\ _fullname o' = Some v.
Proof.
  intros Hl. split; [intros a; apply CloseApproach_time_str_store|].
  exists (fullname_of o), (with_fullname l o (fullname_of o) h).
  split; [apply NearEarthObject_fullname_run, Hl|].
  split; [reflexivity|]. split; [reflexivity|].
  split.
  - intros l' Hne. unfold with_fullname. simpl.
    apply lookup_insert_ne. congruence.
  - exists (set__fullname (fullname_of o) o). unfold with_fullname. simpl.
    rewrite lookup_insert_eq. repeat split; reflexivity.
Qed.

Lemma C4_reads_and_the_store_witness :
  let o := mk_neo "433" (Some "Eros")
             (S754_finite false 4740038607807447 (-48)) false [] (Some "stale") in
  let h := mk_store {[ 0%nat := o ]} ∅ in
  (forall a, snd (CloseApproach_time_str a h) = h) /\
  exists v h',
    NearEarthObject_fullname 0%nat h = (Ok v, h') /\
    v = fullname_of o /\
    cas h' = cas h /\
    (forall l', l' <> 0%nat -> neos h' !! l' = neos h !! l') /\
    exists o',
      neos h' !! 0%nat = Some o' /\
      designation o' = designation o /\ name o' = name o /\
      diameter o' = diameter o /\ hazardous o' = hazardous o /\
      approaches o' = approaches o /\ _fullname o' = Some v.
Proof.
  intros o h. apply (C4_reads_and_the_store h 0%nat o). reflexivity.
Defined.

(** ** The designation *)

(** C5 as stated fails: the designation is stored as given, and an empty
    designation input is stored as the empty string. *)
Lemma C5_empty_designation_is_stored :
  ~ (forall d n dia hz h l h' o,
       NearEarthObject_init d n dia hz h = (Ok l, h') ->
       neos h' !! l = Some o ->
       designation o <> EmptyString).
Proof.
  intros H.
  apply (H EmptyString "Eros" "16.84" "N" empty_store 0%nat
           (snd (NearEarthObject_init EmptyString "Eros" "16.84" "N" empty_store))
           (mk_neo EmptyString (Some "Eros")
                   (S754_finite false 4740038607807447 (-48)) false [] None)).
  - vm_compute. reflexivity.
  - vm_compute. reflexivity.
  - reflexivity.
Qed.

(** C5, amended: after construction the stored designation is the input
    string, empty exactly when the input is empty, and it stays so through
    any sequence of constructions, property reads and string conversions
    of the two classes. *)
Theorem C5_designation_is_the_input_and_stays
  (cd : string -> result datetime) (d n dia hz : string) (h h' : store) (l : loc) :
  NearEarthObject_init d n dia hz h = (Ok l, h') ->
  forall ops : list operation,
    exists o,
      neos (perform_all cd ops h') !! l = Some o /\
      designation o = Py.str d /\
      (designation o = EmptyString <-> d = EmptyString).
Proof.
  intros Hinit ops.
  destruct (NearEarthObject_init_ok _ _ _ _ _ _ _ Hinit) as (x & _ & _ & _ & Hn).
  assert (Hl : neos h' !! l =
               Some (mk_neo d (if negb (String.eqb n EmptyString) then Some n else None)
                       x (if String.eqb hz "Y" then true else false) [] None))
    by (rewrite Hn; apply lookup_insert_eq).
  destruct (perform_all_keeps cd ops h' l _ Hl) as (o & Ho & E).
  exists o. split; [exact Ho|].
  assert (Hd : designation o = d)
    by (apply (f_equal designation) in E; exact E).
  split; [exact Hd|]. rewrite Hd. tauto.
Qed.

Lemma C5_designation_is_the_input_and_stays_witness :
  exists o,
    neos (perform_all cd_to_datetime
            [Read_fullname 0%nat;
             New_NearEarthObject "2020 AB" EmptyString EmptyString "Y";
             New_CloseApproach "433" "1900-Jan-01 12:00" "0.15" "5.5";
             Str_NearEarthObject 0%nat; Repr_NearEarthObject 0%nat;
             Str_CloseApproach 0%nat; Repr_CloseApproach 0%nat;
             Read_time_str 0%nat]
            (snd (NearEarthObject_init "433" "Eros" "16.84" "N" empty_store)))
      !! 0%nat = Some o /\
    designation o = Py.str "433" /\
    (designation o = EmptyString <-> "433" = EmptyString).
Proof.
  apply (C5_designation_is_the_input_and_stays cd_to_datetime
           "433" "Eros" "16.84" "N" empty_store).
  vm_compute. reflexivity.
Defined.

(** ** The approach time as a string *)

(** A check that holds on every number below a bound holds on each. *)
Lemma below_bound (check : Z -> bool) (bound : Z) :
  forallb (fun k => check (Z.of_nat k)) (seq 0 (Z.to_nat bound)) = true ->
  forall n, 0 <= n < bound -> check n = true.
Proof.
  intros Hall n Hn.
  rewrite forallb_forall in Hall.
  specialize (Hall (Z.to_nat n)).
  rewrite Z2Nat.id in Hall by lia.
  apply Hall. apply in_seq. lia.
Qed.

Lemma decimal_two_digits n : 0 <= n < 100 -> two_digits (decimal 2 n) = true.
Proof.
  apply (below_bound (fun n => two_digits (decimal 2 n)) 100).
  vm_compute. reflexivity.
Qed.

Lemma decimal_four_digits n : 0 <= n < 10000 -> four_digits (decimal 4 n) = true.
Proof.
  apply (below_bound (fun n => four_digits (decimal 4 n)) 10000).
  vm_compute. reflexivity.
Qed.

Lemma days_in_month_le y m : days_in_month y m <= 31.
Proof.
  unfold days_in_month.
  destruct (m =? 2); [destruct (is_leap y); lia|].
  destruct ((m =? 4) || (m =? 6) || (m =? 9) || (m =? 11)); lia.
Qed.

Lemma datetime_valid_ranges dt :
  datetime_valid dt = true ->
  0 <= year dt < 10000 /\ 0 <= month dt < 100 /\ 0 <= day dt < 100 /\
  0 <= hour dt < 100 /\ 0 <= minute dt < 100.
Proof.
  unfold datetime_valid. intros H.
  repeat (apply andb_prop in H; destruct H as [H ?]).
  pose proof (days_in_month_le (year dt) (month dt)). lia.
Qed.

Lemma datetime_to_str_shape dt :
  datetime_valid dt = true -> is_date_hour_minute (datetime_to_str dt) = true.
Proof.
  intros Hv.
  destruct (datetime_valid_ranges dt Hv) as (Hy & Hm & Hd & HH & HM).
  pose proof (decimal_four_digits _ Hy) as Ey.
  pose proof (decimal_two_digits _ Hm) as Em.
  pose proof (decimal_two_digits _ Hd) as Ed.
  pose proof (decimal_two_digits _ HH) as EH.
  pose proof (decimal_two_digits _ HM) as EM.
  unfold datetime_to_str.
  destruct (decimal 4 (year dt)) as [|y1 [|y2 [|y3 [|y4 [|? ?]]]]]; try discriminate Ey.
  destruct (decimal 2 (month dt)) as [|m1 [|m2 [|? ?]]]; try discriminate Em.
  destruct (decimal 2 (day dt)) as [|d1 [|d2 [|? ?]]]; try discriminate Ed.
  destruct (decimal 2 (hour dt)) as [|H1 [|H2 [|? ?]]]; try discriminate EH.
  destruct (decimal 2 (minute dt)) as [|M1 [|M2 [|? ?]]]; try discriminate EM.
  simpl in Ey, Em, Ed, EH, EM.
  repeat match goal with
         | H : _ && _ = true |- _ => apply andb_prop in H; destruct H
         end.
  unfold is_date_hour_minute, is_digit_str. simpl.
  repeat match goal with
         | H : Py.is_digit _ = true |- _ => rewrite H; clear H
         end.
  reflexivity.
Qed.

Lemma datetime_to_str_with_seconds sec us dt :
  datetime_to_str (with_seconds sec us dt) = datetime_to_str dt.
Proof. reflexivity. Qed.

Lemma decimal_two_exact n : 0 <= n < 100 -> decimal 2 n = digits2 n.
Proof.
  intros Hn. apply String.eqb_eq.
  revert n Hn.
  apply (below_bound (fun n => String.eqb (decimal 2 n) (digits2 n)) 100).
  vm_compute. reflexivity.
Qed.

Lemma decimal_four_exact n : 0 <= n < 10000 -> decimal 4 n = digits4 n.
Proof.
  intros Hn. apply String.eqb_eq.
  revert n Hn.
  apply (below_bound (fun n => String.eqb (decimal 4 n) (digits4 n)) 10000).
  vm_compute. reflexivity.
Qed.

(** The formatted time, digit by digit, for a valid datetime. *)
Lemma datetime_to_str_digits dt :
  datetime_valid dt = true ->
  datetime_to_str dt =
    digits4 (year dt) +:+ "-" +:+ digits2 (month dt) +:+ "-" +:+
    digits2 (day dt) +:+ " " +:+ digits2 (hour dt) +:+ ":" +:+
    digits2 (minute dt).
Proof.
  intros Hv.
  destruct (datetime_valid_ranges dt Hv) as (Hy & Hm & Hd & HH & HM).
  unfold datetime_to_str.
  rewrite (decimal_four_exact _ Hy), (decimal_two_exact _ Hm),
    (decimal_two_exact _ Hd), (decimal_two_exact _ HH), (decimal_two_exact _ HM).
  reflexivity.
Qed.

(** C6: [time_str] of a close approach is the stored time written as
    [YYYY-MM-DD HH:MM]: the four digits of the year, the two digits of the
    month, of the day, of the hour and of the minute of the stored time, in
    this order and with these separators, sixteen characters and nothing
    after the minutes; the store is left as it is, and a stored time that
    differs only in its seconds and microseconds gives the same string. *)
Theorem C6_time_str_has_no_seconds (h : store) (l : loc) (c : CloseApproach) :
  cas h !! l = Some c ->
  datetime_valid (time c) = true ->
  exists s,
    CloseApproach_time_str l h = (Ok s, h) /\
    s = digits4 (year (time c)) +:+ "-" +:+ digits2 (month (time c)) +:+ "-" +:+
        digits2 (day (time c)) +:+ " " +:+ digits2 (hour (time c)) +:+ ":" +:+
        digits2 (minute (time c)) /\
    is_date_hour_minute s = true /\
    String.length s = 16%nat /\
    forall l2 c2 sec us,
      cas h !! l2 = Some c2 ->
      time c2 = with_seconds sec us (time c) ->
      CloseApproach_time_str l2 h = (Ok s, h).
Proof.
  intros Hl Hv. exists (datetime_to_str (time c)).
  split; [apply CloseApproach_time_str_run, Hl|].
  split; [apply datetime_to_str_digits, Hv|].
  pose proof (datetime_to_str_shape _ Hv) as Hs.
  split; [exact Hs|]. split.
  - unfold is_date_hour_minute in Hs.
    repeat (apply andb_prop in Hs; destruct Hs as [Hs ?]).
    apply Nat.eqb_eq in Hs. exact Hs.
  - intros l2 c2 sec us Hl2 Ht.
    rewrite (CloseApproach_time_str_run h l2 c2 Hl2), Ht.
    rewrite datetime_to_str_with_seconds. reflexivity.
Qed.

Lemma C6_time_str_has_no_seconds_witness :
  let c := mk_approach "99942" (mk_datetime 2029 4 13 21 46 30 250000)
             (S754_zero false) (S754_zero false) None in
  let h := mk_store ∅ {[ 7%nat := c ]} in
  exists s,
    CloseApproach_time_str 7%nat h = (Ok s, h) /\
    s = digits4 (year (time c)) +:+ "-" +:+ digits2 (month (time c)) +:+ "-" +:+
        digits2 (day (time c)) +:+ " " +:+ digits2 (hour (time c)) +:+ ":" +:+
        digits2 (minute (time c)) /\
    is_date_hour_minute s = true /\
    String.length s = 16%nat /\
    forall l2 c2 sec us,
      cas h !! l2 = Some c2 ->
      time c2 = with_seconds sec us (time c) ->
      CloseApproach_time_str l2 h = (Ok s, h).
Proof.
  intros c h. apply (C6_time_str_has_no_seconds h 7%nat c); reflexivity.
Defined.

(** The digits of 2029-04-13 21:46, whatever the seconds. *)
Example digits_of_a_time :
  digits4 2029 +:+ "-" +:+ digits2 4 +:+ "-" +:+ digits2 13 +:+ " " +:+
  digits2 21 +:+ ":" +:+ digits2 46 = "2029-04-13 21:46".
Proof. vm_compute. reflexivity. Qed.

(** The stored time 2020-01-01 23:45:30 reads "2020-01-01 23:45". *)
Example time_str_drops_seconds :
  fst (CloseApproach_time_str 7%nat
         (mk_store ∅ {[ 7%nat :=
            mk_approach "433" (mk_datetime 2020 1 1 23 45 30 250000)
              (S754_zero false) (S754_zero false) None ]}))
  = Ok "2020-01-01 23:45".
Proof. vm_compute. reflexivity. Qed.

(** ** Errors of construction *)

(** C7 as stated fails: a close approach built with an empty distance
    raises, although no non-empty numeric input is malformed. *)
Lemma C7_empty_distance_raises :
  ~ (forall cd d t dist vel h,
       is_raise (fst (CloseApproach_init cd d t dist vel h)) = true <->
       (dist <> EmptyString /\ is_raise (Py.float_of_str dist) = true) \/
       (vel <> EmptyString /\ is_raise (Py.float_of_str vel) = true)).
Proof.
  intros H.
  destruct (H cd_to_datetime "433" "1900-Jan-01 12:00" EmptyString "5.5" empty_store)
    as [Hraise _].
  destruct Hraise as [[Hne _]|[_ Hvel]].
  - vm_compute. reflexivity.
  - apply Hne. reflexivity.
  - vm_compute in Hvel. discriminate Hvel.
Qed.

(** C7, amended: the construction of a [NearEarthObject] raises exactly
    when the diameter input is non-empty and [float] rejects it; the
    construction of a [CloseApproach] raises exactly when the time parser
    rejects the time input or [float] rejects the distance or the velocity
    input, the empty string included.  The error is the one of the failed
    conversion, it reaches the caller, and the store is as before the
    call.  An empty name and an empty diameter do not raise: they are
    stored as [None] and as a NaN. *)
Theorem C7_errors_of_construction :
  (forall d n dia hz h e,
     fst (NearEarthObject_init d n dia hz h) = Raise e <->
     dia <> EmptyString /\ Py.float_of_str dia = Raise e) /\
  (forall cd d t dist vel h e,
     fst (CloseApproach_init cd d t dist vel h) = Raise e <->
     cd t = Raise e \/
     (exists t', cd t = Ok t') /\
     (Py.float_of_str dist = Raise e \/
      (exists x, Py.float_of_str dist = Ok x) /\ Py.float_of_str vel = Raise e)) /\
  (forall d n dia hz h,
     is_raise (fst (NearEarthObject_init d n dia hz h)) = true ->
     snd (NearEarthObject_init d n dia hz h) = h) /\
  (forall cd d t dist vel h,
     is_raise (fst (CloseApproach_init cd d t dist vel h)) = true ->
     snd (CloseApproach_init cd d t dist vel h) = h) /\
  (forall d hz h,
     exists l h' o,
       NearEarthObject_init d EmptyString EmptyString hz h = (Ok l, h') /\
       neos h' !! l = Some o /\ name o = None /\ Py.isnan (diameter o) = true).
Proof.
  repeat split.
  - rewrite NearEarthObject_init_run in H.
    destruct (String.eqb dia EmptyString) eqn:E; simpl in H.
    + discriminate H.
    + apply String.eqb_neq in E. exact E.
  - rewrite NearEarthObject_init_run in H.
    destruct (String.eqb dia EmptyString) eqn:E; simpl in H.
    + discriminate H.
    + destruct (Py.float_of_str dia); simpl in H; congruence.
  - intros [Hne He]. rewrite NearEarthObject_init_run.
    apply String.eqb_neq in Hne. rewrite Hne. simpl. rewrite He. reflexivity.
  - rewrite CloseApproach_init_run.
    destruct (cd t) as [t'|e1]; [|simpl; intros [= ->]; left; reflexivity].
    destruct (Py.float_of_str dist) as [x|e2];
      [|simpl; intros [= ->]; right; split; [eexists; reflexivity|left; reflexivity]].
    destruct (Py.float_of_str vel) as [v|e3]; [discriminate|].
    simpl. intros [= ->]. right. split; [eexists; reflexivity|].
    right. split; [eexists|]; reflexivity.
  - rewrite CloseApproach_init_run.
    intros [Ht|[[t' Ht] [Hd|[[x Hd] Hv]]]].
    + rewrite Ht. reflexivity.
    + rewrite Ht, Hd. reflexivity.
    + rewrite Ht, Hd, Hv. reflexivity.
  - intros d n dia hz h. rewrite NearEarthObject_init_run.
    destruct (if negb (String.eqb dia EmptyString) then _ else _);
      [discriminate|reflexivity].
  - intros cd d t dist vel h. rewrite CloseApproach_init_run.
    destruct (cd t); [|reflexivity].
    destruct (Py.float_of_str dist); [|reflexivity].
    destruct (Py.float_of_str vel); [discriminate|reflexivity].
  - intros d hz h. rewrite NearEarthObject_init_run. simpl.
    eexists _, _, _. split; [reflexivity|]. simpl.
    split; [apply lookup_insert_eq|]. split; reflexivity.
Qed.

(** ** The description of a close approach *)

(** C8: the description of a close approach is the sentence built from its
    [time_str], the distance and the velocity to two decimals, and a name:
    the literal None while [neo] is [None], read without raising and
    without touching the store, and the [fullname] of the linked object
    once [neo] refers to one. *)
Theorem C8_description_of_an_approach (h : store) (l : loc) (c : CloseApproach) :
  cas h !! l = Some c ->
  exists time_str,
    fst (CloseApproach_time_str l h) = Ok time_str /\
    (neo c = None ->
       CloseApproach_str l h =
         (Ok ("At " +:+ time_str +:+ ", 'None' approaches Earth at a distance of "
              +:+ Py.format_f 2 (distance c) +:+ " au and a velocity of "
              +:+ Py.format_f 2 (velocity c) +:+ " km/s."), h)) /\
    (forall n o,
       neo c = Some n -> neos h !! n = Some o ->
       exists fullname,
         fst (NearEarthObject_fullname n h) = Ok fullname /\
         fst (CloseApproach_str l h) =
           Ok ("At " +:+ time_str +:+ ", '" +:+ fullname +:+
               "' approaches Earth at a distance of "
               +:+ Py.format_f 2 (distance c) +:+ " au and a velocity of "
               +:+ Py.format_f 2 (velocity c) +:+ " km/s.")).
Proof.
  intros Hl. exists (datetime_to_str (time c)).
  split; [rewrite (CloseApproach_time_str_run h l c Hl); reflexivity|].
  split.
  - intros Hn. rewrite (CloseApproach_str_unlinked h l c Hl Hn). reflexivity.
  - intros n o Hn Ho. exists (fullname_of o).
    rewrite (NearEarthObject_fullname_run h n o Ho).
    rewrite (CloseApproach_str_linked h l c n o Hl Hn Ho).
    split; reflexivity.
Qed.

Lemma C8_description_of_an_approach_witness :
  let o := mk_neo "433" (Some "Eros")
             (S754_finite false 4740038607807447 (-48)) false [0%nat] None in
  let c := mk_approach "433" (mk_datetime 1900 1 1 12 0 0 0)
             (S754_finite false 5404319552844595 (-55))
             (S754_finite false 11 (-1)) (Some 0%nat) in
  let h := mk_store {[ 0%nat := o ]} {[ 0%nat := c ]} in
  exists time_str,
    fst (CloseApproach_time_str 0%nat h) = Ok time_str /\
    (neo c = None ->
       CloseApproach_str 0%nat h =
         (Ok ("At " +:+ time_str +:+ ", 'None' approaches Earth at a distance of "
              +:+ Py.format_f 2 (distance c) +:+ " au and a velocity of "
              +:+ Py.format_f 2 (velocity c) +:+ " km/s."), h)) /\
    (forall n o,
       neo c = Some n -> neos h !! n = Some o ->
       exists fullname,
         fst (NearEarthObject_fullname n h) = Ok fullname /\
         fst (CloseApproach_str 0%nat h) =
           Ok ("At " +:+ time_str +:+ ", '" +:+ fullname +:+
               "' approaches Earth at a distance of "
               +:+ Py.format_f 2 (distance c) +:+ " au and a velocity of "
               +:+ Py.format_f 2 (velocity c) +:+ " km/s.")).
Proof.
  intros o c h. apply (C8_description_of_an_approach h 0%nat c). reflexivity.
Defined.

(** The scenario of the unlinked approach, and the same approach linked. *)
Example description_before_linking :
  fst ((l <- CloseApproach_init cd_to_datetime "433" "1900-Jan-01 12:00" "0.15" "5.5" ;;
        CloseApproach_str l) empty_store)
  = Ok "At 1900-01-01 12:00, 'None' approaches Earth at a distance of 0.15 au and a velocity of 5.50 km/s.".
Proof. vm_compute. reflexivity. Qed.

Example description_after_linking :
  fst (CloseApproach_str 0%nat
         (mk_store
            {[ 0%nat := mk_neo "433" (Some "Eros")
                          (S754_finite false 4740038607807447 (-48)) false [0%nat] None ]}
            {[ 0%nat := mk_approach "433" (mk_datetime 1900 1 1 12 0 0 0)
                          (S754_finite false 5404319552844595 (-55))
                          (S754_finite false 11 (-1)) (Some 0%nat) ]}))
  = Ok "At 1900-01-01 12:00, '433 (Eros)' approaches Earth at a distance of 0.15 au and a velocity of 5.50 km/s.".
Proof. vm_compute. reflexivity. Qed.

(** ** The internal designation of a close approach *)

(** C10: two close approaches with the same time, distance, velocity and
    [neo] have the same [time_str], description and representation, and
    leave the same store, whatever their internal designations. *)
Theorem C10_outputs_ignore_the_internal_designation
  (h : store) (l1 l2 : loc) (c1 c2 : CloseApproach) :
  cas h !! l1 = Some c1 ->
  cas h !! l2 = Some c2 ->
  time c1 = time c2 ->
  distance c1 = distance c2 ->
  velocity c1 = velocity c2 ->
  neo c1 = neo c2 ->
  CloseApproach_time_str l1 h = CloseApproach_time_str l2 h /\
  CloseApproach_str l1 h = CloseApproach_str l2 h /\
  CloseApproach_repr l1 h = CloseApproach_repr l2 h.
Proof.
  intros H1 H2 Ht Hd Hv Hn.
  assert (Ets : CloseApproach_time_str l1 h = CloseApproach_time_str l2 h).
  { rewrite (CloseApproach_time_str_run h l1 c1 H1),
            (CloseApproach_time_str_run h l2 c2 H2), Ht. reflexivity. }
  split; [exact Ets|]. split.
  - unfold CloseApproach_str, CloseApproach_time_str. run.
    rewrite H1, H2. simpl. rewrite H1, H2, Ht, Hd, Hv, Hn. reflexivity.
  - unfold CloseApproach_repr, CloseApproach_time_str. run.
    rewrite H1, H2. simpl. rewrite H1, H2, Ht, Hd, Hv, Hn. reflexivity.
Qed.

Lemma C10_outputs_ignore_the_internal_designation_witness :
  let t := mk_datetime 1900 1 1 12 0 0 0 in
  let x := S754_finite false 5404319552844595 (-55) in
  let v := S754_finite false 11 (-1) in
  let o := mk_neo "433" (Some "Eros")
             (S754_finite false 4740038607807447 (-48)) false [] None in
  let h := mk_store {[ 0%nat := o ]}
             {[ 0%nat := mk_approach "433" t x v (Some 0%nat);
                1%nat := mk_approach "99942" t x v (Some 0%nat) ]} in
  CloseApproach_time_str 0%nat h = CloseApproach_time_str 1%nat h /\
  CloseApproach_str 0%nat h = CloseApproach_str 1%nat h /\
  CloseApproach_repr 0%nat h = CloseApproach_repr 1%nat h.
Proof.
  intros t x v o h.
  apply (C10_outputs_ignore_the_internal_designation h 0%nat 1%nat
           (mk_approach "433" t x v (Some 0%nat))
           (mk_approach "99942" t x v (Some 0%nat)));
    reflexivity.
Defined.

(** ** Further properties: construction *)

(** A successful construction of a [NearEarthObject] puts the new object at
    an address that was not in use, with an empty collection of approaches
    and no [_fullname]; its diameter is a NaN for an empty input and the
    parsed float otherwise; the objects already there and the close
    approaches are as before. *)
Theorem NearEarthObject_init_allocates
  (d n dia hz : string) (h h' : store) (l : loc) :
  NearEarthObject_init d n dia hz h = (Ok l, h') ->
  neos h !! l = None /\
  cas h' = cas h /\
  (forall l', l' <> l -> neos h' !! l' = neos h !! l') /\
  exists o,
    neos h' !! l = Some o /\
    approaches o = [] /\ _fullname o = None /\
    (dia = EmptyString -> Py.isnan (diameter o) = true) /\
    (dia <> EmptyString -> Py.float_of_str dia = Ok (diameter o)).
Proof.
  intros Hinit.
  destruct (NearEarthObject_init_ok _ _ _ _ _ _ _ Hinit)
    as (x & Hx & Hfresh & Hcas & Hn).
  split; [exact Hfresh|]. split; [exact Hcas|]. split.
  - intros l' Hne. rewrite Hn. apply lookup_insert_ne. congruence.
  - eexists. split; [rewrite Hn; apply lookup_insert_eq|].
    simpl. split; [reflexivity|]. split; [reflexivity|]. split.
    + intros ->. simpl in Hx. injection Hx as <-. reflexivity.
    + intros Hne. apply String.eqb_neq in Hne. rewrite Hne in Hx. exact Hx.
Qed.

Lemma NearEarthObject_init_allocates_witness :
  let h := snd (NearEarthObject_init "433" "Eros" "16.84" "N" empty_store) in
  let h' := snd (NearEarthObject_init "2020 AB" EmptyString EmptyString "Y" h) in
  neos h !! 1%nat = None /\
  cas h' = cas h /\
  (forall l', l' <> 1%nat -> neos h' !! l' = neos h !! l') /\
  exists o,
    neos h' !! 1%nat = Some o /\
    approaches o = [] /\ _fullname o = None /\
    (EmptyString = EmptyString -> Py.isnan (diameter o) = true) /\
    (EmptyString <> EmptyString -> Py.float_of_str EmptyString = Ok (diameter o)).
Proof.
  intros h h'.
  apply (NearEarthObject_init_allocates "2020 AB" EmptyString EmptyString "Y" h h' 1%nat).
  vm_compute. reflexivity.
Defined.

Lemma CloseApproach_init_ok cd d t dist vel h l h' :
  CloseApproach_init cd d t dist vel h = (Ok l, h') ->
  exists t' x v,
    cd t = Ok t' /\ Py.float_of_str dist = Ok x /\ Py.float_of_str vel = Ok v /\
    cas h !! l = None /\
    neos h' = neos h /\
    cas h' = <[l := mk_approach d t' x v None]> (cas h).
Proof.
  rewrite CloseApproach_init_run.
  destruct (cd t) as [t'|]; [|discriminate].
  destruct (Py.float_of_str dist) as [x|]; [|discriminate].
  destruct (Py.float_of_str vel) as [v|]; [|discriminate].
  intros H. injection H as <- <-. exists t', x, v.
  repeat split; try reflexivity.
  apply not_elem_of_dom. apply is_fresh.
Qed.

(** A successful construction of a [CloseApproach] puts the new object at
    an address that was not in use, unlinked ([neo] is [None]), holding the
    designation as given, the parsed time and the parsed distance and
    velocity; the close approaches already there and the near-Earth
    objects are as before. *)
Theorem CloseApproach_init_allocates
  (cd : string -> result datetime) (d t dist vel : string)
  (h h' : store) (l : loc) :
  CloseApproach_init cd d t dist vel h = (Ok l, h') ->
  cas h !! l = None /\
  neos h' = neos h /\
  (forall l', l' <> l -> cas h' !! l' = cas h !! l') /\
  exists c,
    cas h' !! l = Some c /\
    neo c = None /\ _designation c = d /\
    cd t = Ok (time c) /\
    Py.float_of_str dist = Ok (distance c) /\
    Py.float_of_str vel = Ok (velocity c).
Proof.
  intros Hinit.
  destruct (CloseApproach_init_ok _ _ _ _ _ _ _ _ Hinit)
    as (t' & x & v & Ht & Hx & Hv & Hfresh & Hneos & Hcas).
  split; [exact Hfresh|]. split; [exact Hneos|]. split.
  - intros l' Hne. rewrite Hcas. apply lookup_insert_ne. congruence.
  - eexists. split; [rewrite Hcas; apply lookup_insert_eq|].
    simpl. repeat split; assumption.
Qed.

Lemma CloseApproach_init_allocates_witness :
  let h := snd (CloseApproach_init cd_to_datetime
                  "433" "1900-Jan-01 12:00" "0.15" "5.5" empty_store) in
  let h' := snd (CloseApproach_init cd_to_datetime
                   "99942" "2029-Apr-13 21:46" "0.000254" "7.42" h) in
  cas h !! 1%nat = None /\
  neos h' = neos h /\
  (forall l', l' <> 1%nat -> cas h' !! l' = cas h !! l') /\
  exists c,
    cas h' !! 1%nat = Some c /\
    neo c = None /\ _designation c = "99942" /\
    cd_to_datetime "2029-Apr-13 21:46" = Ok (time c) /\
    Py.float_of_str "0.000254" = Ok (distance c) /\
    Py.float_of_str "7.42" = Ok (velocity c).
Proof.
  intros h h'.
  apply (CloseApproach_init_allocates cd_to_datetime
           "99942" "2029-Apr-13 21:46" "0.000254" "7.42" h h' 1%nat).
  vm_compute. reflexivity.
Defined.

(** ** Further properties: reads *)

Lemma with_fullname_twice h l o v :
  neos h !! l = Some o ->
  with_fullname l (set__fullname v o) v (with_fullname l o v h)
  = with_fullname l o v h.
Proof.
  intros Hl. unfold with_fullname. simpl. f_equal.
  apply insert_insert_eq.
Qed.

(** Reading [fullname] a second time returns what the first read returned
    and leaves the store as the first read left it, for a live and for a
    dangling address alike. *)
Theorem NearEarthObject_fullname_idempotent (h : store) (l : loc) :
  NearEarthObject_fullname l (snd (NearEarthObject_fullname l h))
  = NearEarthObject_fullname l h.
Proof.
  destruct (neos h !! l) as [o|] eqn:Hl.
  - rewrite (NearEarthObject_fullname_run h l o Hl). simpl.
    rewrite (NearEarthObject_fullname_run _ l (set__fullname (fullname_of o) o))
      by (unfold with_fullname; simpl; apply lookup_insert_eq).
    change (fullname_of (set__fullname (fullname_of o) o)) with (fullname_of o).
    rewrite (with_fullname_twice h l o _ Hl). reflexivity.
  - rewrite (NearEarthObject_fullname_dangling h l Hl). simpl.
    apply NearEarthObject_fullname_dangling, Hl.
Qed.

(** The description of a near-Earth object leaves the store exactly as a
    read of its [fullname] does, and describing it again gives the same
    sentence and the same store. *)
Theorem NearEarthObject_str_effect (h : store) (l : loc) :
  snd (NearEarthObject_str l h) = snd (NearEarthObject_fullname l h) /\
  NearEarthObject_str l (snd (NearEarthObject_str l h)) = NearEarthObject_str l h.
Proof.
  destruct (neos h !! l) as [o|] eqn:Hl.
  - rewrite (NearEarthObject_str_run h l o Hl),
            (NearEarthObject_fullname_run h l o Hl).
    split; [reflexivity|]. simpl.
    rewrite (NearEarthObject_str_run _ l (set__fullname (fullname_of o) o))
      by (unfold with_fullname; simpl; apply lookup_insert_eq).
    change (fullname_of (set__fullname (fullname_of o) o)) with (fullname_of o).
    rewrite (with_fullname_twice h l o _ Hl). reflexivity.
  - rewrite (NearEarthObject_str_dangling h l Hl),
            (NearEarthObject_fullname_dangling h l Hl).
    split; [reflexivity|]. simpl. apply NearEarthObject_str_dangling, Hl.
Qed.

(** The representations of the two classes are pure reads: whatever the
    address, [__repr__] leaves the store as it is, and that of a close
    approach embeds the representation of the object it is linked to. *)
Theorem repr_is_pure (h : store) (l : loc) :
  snd (NearEarthObject_repr l h) = h /\
  snd (CloseApproach_repr l h) = h /\
  forall c, cas h !! l = Some c ->
    match neo c with
    | None =>
        fst (CloseApproach_repr l h) =
          Ok ("CloseApproach(time=" +:+ Py.repr_str (datetime_to_str (time c)) +:+
              ", distance=" +:+ Py.format_f 2 (distance c) +:+
              ", velocity=" +:+ Py.format_f 2 (velocity c) +:+ ", neo=None)")
    | Some n =>
        forall r, fst (NearEarthObject_repr n h) = Ok r ->
          fst (CloseApproach_repr l h) =
            Ok ("CloseApproach(time=" +:+ Py.repr_str (datetime_to_str (time c)) +:+
                ", distance=" +:+ Py.format_f 2 (distance c) +:+
                ", velocity=" +:+ Py.format_f 2 (velocity c) +:+
                ", neo=" +:+ r +:+ ")")
    end.
Proof.
  split; [apply NearEarthObject_repr_store|].
  split; [apply CloseApproach_repr_store|].
  intros c Hl. unfold CloseApproach_repr, CloseApproach_time_str. run.
  rewrite Hl. simpl. rewrite Hl.
  destruct (neo c) as [n|]; [|reflexivity].
  intros r. unfold NearEarthObject_repr. run.
  destruct (neos h !! n) as [o|]; simpl; [|discriminate].
  intros [= <-]. reflexivity.
Qed.

Lemma CloseApproach_str_dangling_neo h l c n :
  cas h !! l = Some c -> neo c = Some n -> neos h !! n = None ->
  CloseApproach_str l h = (Raise DanglingReference, h).
Proof.
  intros Hl Hn Ho. unfold CloseApproach_str. unfold bind at 1.
  rewrite (CloseApproach_time_str_run h l c Hl).
  unfold bind at 1, get_approach. rewrite Hl, Hn. unfold bind at 1.
  rewrite (NearEarthObject_fullname_dangling h n Ho). reflexivity.
Qed.

(** The description of a close approach touches the store only through the
    object it is linked to: it leaves the store as a read of that object's
    [fullname] does, and as it is when the approach is unlinked; the close
    approaches are never written. *)
Theorem CloseApproach_str_effect (h : store) (l : loc) (c : CloseApproach) :
  cas h !! l = Some c ->
  snd (CloseApproach_str l h) =
    match neo c with
    | Some n => snd (NearEarthObject_fullname n h)
    | None => h
    end /\
  cas (snd (CloseApproach_str l h)) = cas h.
Proof.
  intros Hl. destruct (neo c) as [n|] eqn:Hn.
  - destruct (neos h !! n) as [o|] eqn:Ho.
    + rewrite (CloseApproach_str_linked h l c n o Hl Hn Ho),
              (NearEarthObject_fullname_run h n o Ho).
      split; reflexivity.
    + rewrite (NearEarthObject_fullname_dangling h n Ho),
              (CloseApproach_str_dangling_neo h l c n Hl Hn Ho).
      split; reflexivity.
  - rewrite (CloseApproach_str_unlinked h l c Hl Hn). split; reflexivity.
Qed.

Lemma CloseApproach_str_effect_witness :
  let o := mk_neo "433" (Some "Eros")
             (S754_finite false 4740038607807447 (-48)) false [0%nat] None in
  let c := mk_approach "433" (mk_datetime 1900 1 1 12 0 0 0)
             (S754_finite false 5404319552844595 (-55))
             (S754_finite false 11 (-1)) (Some 0%nat) in
  let h := mk_store {[ 0%nat := o ]} {[ 0%nat := c ]} in
  snd (CloseApproach_str 0%nat h) =
    match neo c with
    | Some n => snd (NearEarthObject_fullname n h)
    | None => h
    end /\
  cas (snd (CloseApproach_str 0%nat h)) = cas h.
Proof.
  intros o c h. apply (CloseApproach_str_effect h 0%nat c). reflexivity.
Defined.

(** ** Further properties: sequences of operations *)

Lemma discard_store {A} (c : M A) (h : store) : snd (discard c h) = snd (c h).
Proof. unfold discard, bind, ret. destruct (c h) as [[a|e] h']; reflexivity. Qed.

Lemma NearEarthObject_fullname_effect h l :
  effect h (snd (NearEarthObject_fullname l h)).
Proof.
  destruct (neos h !! l) as [o|] eqn:Hl.
  - rewrite (NearEarthObject_fullname_run h l o Hl). apply effect_fullname, Hl.
  - rewrite (NearEarthObject_fullname_dangling h l Hl). apply effect_none.
Qed.

Lemma perform_effect cd op h : effect h (snd (perform cd op h)).
Proof.
  destruct op as [d n dia hz|d t dist vel|l|l|l|l|l|l]; simpl; rewrite discard_store.
  - rewrite NearEarthObject_init_run.
    destruct (if negb (String.eqb dia EmptyString) then _ else _) as [x|e];
      simpl; [|apply effect_none].
    apply effect_new_neo; [|reflexivity|reflexivity].
    apply not_elem_of_dom, is_fresh.
  - rewrite CloseApproach_init_run.
    destruct (cd t); [|apply effect_none].
    destruct (Py.float_of_str dist); [|apply effect_none].
    destruct (Py.float_of_str vel); [|apply effect_none].
    simpl. apply effect_new_approach; [|reflexivity].
    apply not_elem_of_dom, is_fresh.
  - apply NearEarthObject_fullname_effect.
  - destruct (NearEarthObject_str_effect h l) as [-> _].
    apply NearEarthObject_fullname_effect.
  - rewrite NearEarthObject_repr_store. apply effect_none.
  - rewrite CloseApproach_time_str_store. apply effect_none.
  - destruct (cas h !! l) as [c|] eqn:Hl.
    + destruct (CloseApproach_str_effect h l c Hl) as [-> _].
      destruct (neo c); [apply NearEarthObject_fullname_effect|apply effect_none].
    + unfold CloseApproach_str, CloseApproach_time_str. run. rewrite Hl.
      apply effect_none.
  - rewrite CloseApproach_repr_store. apply effect_none.
Qed.

Lemma effect_consistent h h' : effect h h' -> consistent h -> consistent h'.
Proof.
  intros He [Hn Hc]. destruct He as [|l o Hl|l o Hl Ha Hf|l c Hl Hneo].
  - split; assumption.
  - split; [|exact Hc]. intros l' o'. unfold with_fullname. simpl.
    destruct (decide (l = l')) as [<-|Hne].
    + rewrite lookup_insert_eq. intros [= <-]. simpl.
      split; [apply (Hn l o Hl)|]. right. reflexivity.
    + rewrite lookup_insert_ne by exact Hne. apply Hn.
  - split; [|exact Hc]. intros l' o'. simpl.
    destruct (decide (l = l')) as [<-|Hne].
    + rewrite lookup_insert_eq. intros [= <-]. split; [exact Ha|left; exact Hf].
    + rewrite lookup_insert_ne by exact Hne. apply Hn.
  - split; [exact Hn|]. intros l' c'. simpl.
    destruct (decide (l = l')) as [<-|Hne].
    + rewrite lookup_insert_eq. intros [= <-]. exact Hneo.
    + rewrite lookup_insert_ne by exact Hne. apply Hc.
Qed.

Lemma effect_keeps_approaches h h' l c :
  effect h h' -> cas h !! l = Some c -> cas h' !! l = Some c.
Proof.
  intros He Hl. destruct He as [|l' o Hl'|l' o Hl' Ha Hf|l' c' Hl' Hneo]; simpl;
    try exact Hl.
  rewrite lookup_insert_ne; [exact Hl|]. intros ->. congruence.
Qed.

Lemma perform_all_consistent cd ops h :
  consistent h -> consistent (perform_all cd ops h).
Proof.
  revert h. induction ops as [|op rest IH]; intros h Hc; simpl; [exact Hc|].
  apply IH. eapply effect_consistent; [apply perform_effect|exact Hc].
Qed.

(** Whatever constructions, property reads and string conversions are run
    from the empty store, with whatever time parser, no object ends up
    linked (every collection of approaches is empty, every [neo] is
    [None]), and a [_fullname] that was assigned holds the value that
    [fullname] computes from the designation and the name. *)
Theorem operations_keep_the_store_consistent
  (cd : string -> result datetime) (ops : list operation) :
  consistent (perform_all cd ops empty_store).
Proof.
  apply perform_all_consistent. split; intros l x Hl; simpl in Hl;
    rewrite lookup_empty in Hl; discriminate Hl.
Qed.

(** No sequence of constructions, property reads and string conversions
    writes a close approach, and the only attribute of a near-Earth object
    it can write is [_fullname]. *)
Theorem operations_write_only_fullname
  (cd : string -> result datetime) (ops : list operation) (h : store) :
  (forall l c, cas h !! l = Some c -> cas (perform_all cd ops h) !! l = Some c) /\
  (forall l o, neos h !! l = Some o ->
     exists o',
       neos (perform_all cd ops h) !! l = Some o' /\
       designation o' = designation o /\ name o' = name o /\
       diameter o' = diameter o /\ hazardous o' = hazardous o /\
       approaches o' = approaches o).
Proof.
  split.
  - revert h. induction ops as [|op rest IH]; intros h l c Hl; simpl; [exact Hl|].
    apply IH. eapply effect_keeps_approaches; [apply perform_effect|exact Hl].
  - intros l o Hl.
    destruct (perform_all_keeps cd ops h l o Hl) as (o' & Ho' & E).
    exists o'. split; [exact Ho'|].
    unfold erase_fullname in E. injection E as -> -> -> -> ->.
    repeat split; reflexivity.
Qed.

(** ** Further properties: blank numeric fields *)

Lemma space_is_plain c :
  Py.is_space c = true ->
  Ascii.eqb c "_" = false /\ Py.is_digit c = false.
Proof.
  destruct c as [[] [] [] [] [] [] [] []]; intros H;
    try discriminate H; split; reflexivity.
Qed.






Lemma remove_underscores_prev p q s :
  Ascii.eqb p "_" = false -> Py.is_digit p = false ->
  Ascii.eqb q "_" = false -> Py.is_digit q = false ->
  Py.remove_underscores p s = Py.remove_underscores q s.
Proof.
  intros Hp Hpd Hq Hqd. destruct s as [|c r]; simpl.
  - rewrite Hp, Hq. reflexivity.
  - rewrite Hp, Hq, Hpd, Hqd. reflexivity.
Qed.

Lemma parse_float_leading_space c s :
  Py.is_space c = true -> Py.parse_float (String c s) = Py.parse_float s.
Proof.
  intros Hc. destruct (space_is_plain c Hc) as [Hu Hd].
  unfold Py.parse_float. simpl. rewrite Hu. simpl.
  rewrite (remove_underscores_prev c "000" s Hu Hd eq_refl eq_refl).
  destruct (Py.remove_underscores "000" s) as [t|]; simpl; [|reflexivity].
  rewrite Hc. reflexivity.
Qed.

(** Whitespace in front of a diameter that [float] accepts changes nothing:
    the construction returns the same address and the same store as for
    the diameter without it. *)
Theorem leading_space_in_diameter
  (c : ascii) (dia : string) (x : Py.float) (d n hz : string) (h : store) :
  Py.is_space c = true ->
  Py.float_of_str dia = Ok x ->
  NearEarthObject_init d n (String c dia) hz h =
  NearEarthObject_init d n dia hz h.
Proof.
  intros Hc Hx. rewrite !NearEarthObject_init_run.
  assert (Hne : String.eqb dia EmptyString = false).
  { destruct dia; [discriminate Hx|reflexivity]. }
  rewrite Hne. simpl.
  unfold Py.float_of_str in *. rewrite (parse_float_leading_space c dia Hc).
  destruct (Py.parse_float dia); [reflexivity|discriminate Hx].
Qed.

Lemma leading_space_in_diameter_witness :
  NearEarthObject_init "433" "Eros" " 16.84" "N" empty_store =
  NearEarthObject_init "433" "Eros" "16.84" "N" empty_store.
Proof.
  apply (leading_space_in_diameter " " "16.84"
           (S754_finite false 4740038607807447 (-48)));
    reflexivity.
Defined.

(** ** Further properties: the decimals of a formatted float *)















(** ** Further properties: construction followed by a read *)

(** A close approach that was just constructed can be read at once: its
    [time_str] is the formatted parsed time, its description names the
    object None, and neither read raises or touches the store. *)
Theorem new_approach_is_described_unlinked
  (cd : string -> result datetime) (d t dist vel : string)
  (h h' : store) (l : loc) :
  CloseApproach_init cd d t dist vel h = (Ok l, h') ->
  exists t' x v,
    cd t = Ok t' /\ Py.float_of_str dist = Ok x /\ Py.float_of_str vel = Ok v /\
    CloseApproach_time_str l h' = (Ok (datetime_to_str t'), h') /\
    CloseApproach_str l h' =
      (Ok ("At " +:+ datetime_to_str t' +:+
           ", 'None' approaches Earth at a distance of " +:+
           Py.format_f 2 x +:+ " au and a velocity of " +:+
           Py.format_f 2 v +:+ " km/s."), h').
Proof.
  intros Hinit.
  destruct (CloseApproach_init_ok _ _ _ _ _ _ _ _ Hinit)
    as (t' & x & v & Ht & Hx & Hv & _ & _ & Hcas).
  exists t', x, v. repeat (split; [assumption|]).
  assert (Hl : cas h' !! l = Some (mk_approach d t' x v None))
    by (rewrite Hcas; apply lookup_insert_eq).
  split.
  - rewrite (CloseApproach_time_str_run h' l _ Hl). reflexivity.
  - rewrite (CloseApproach_str_unlinked h' l _ Hl eq_refl). reflexivity.
Qed.

Lemma new_approach_is_described_unlinked_witness :
  let h' := snd (CloseApproach_init cd_to_datetime
                   "433" "1900-Jan-01 12:00" "0.15" "5.5" empty_store) in
  exists t' x v,
    cd_to_datetime "1900-Jan-01 12:00" = Ok t' /\
    Py.float_of_str "0.15" = Ok x /\ Py.float_of_str "5.5" = Ok v /\
    CloseApproach_time_str 0%nat h' = (Ok (datetime_to_str t'), h') /\
    CloseApproach_str 0%nat h' =
      (Ok ("At " +:+ datetime_to_str t' +:+
           ", 'None' approaches Earth at a distance of " +:+
           Py.format_f 2 x +:+ " au and a velocity of " +:+
           Py.format_f 2 v +:+ " km/s."), h').
Proof.
  intros h'.
  apply (new_approach_is_described_unlinked cd_to_datetime
           "433" "1900-Jan-01 12:00" "0.15" "5.5" empty_store h' 0%nat).
  vm_compute. reflexivity.
Defined.
